(** * verification/verify_taskpane.py: the task-pane smoke check

    The script drives a headless Chromium through Playwright's synchronous
    API: it opens [src/taskpane/taskpane.html] of the current directory,
    looks at the input [#baseUrlInput], fills it when it is visible, saves a
    screenshot and closes the browser.

    The script is embedded as a program in a state-and-exception monad over
    a [World]: the ambient process state, the filesystem, the standard
    streams, the driver and browser processes, the page's DOM and the log of
    every call the script makes.  Python statements become binds; an
    exception is an outcome [Raise e] that skips the rest of a block but
    keeps the effects already made; the [with] statement is [with_]. *)

From stdpp Require Import gmap strings list.
From Stdlib Require Import Ascii String ZArith.

#[local] Open Scope string_scope.
#[local] Open Scope Z_scope.

(** ** The page and the files *)

(** A DOM element, reduced to what Playwright's [is_visible] and [fill]
    look at: whether it is rendered ([el_visible]: attached, with a
    non-empty box and not hidden by style), whether it accepts text
    ([el_editable]: an enabled, writable input, text area or editable
    element) and its current value. *)
Record element := Element {
  el_visible : bool;
  el_editable : bool;
  el_value : string
}.

Definition set_value (value : string) (e : element) : element :=
  {| el_visible := el_visible e; el_editable := el_editable e;
     el_value := value |}.

(** A document is its elements by [id]. *)
Abbreviation document := (gmap string element).

(** An image made by [page.screenshot]: whether the whole scrollable page
    or only the viewport was captured, and the DOM that was rendered. *)
Record image := Image {
  img_full_page : bool;
  img_dom : document
}.

Inductive file :=
| HtmlFile (doc : document)
| PngFile (img : image).

(** What the browser shows for a file it is pointed at: an image has no
    element with an id. *)
Definition file_document (f : file) : document :=
  match f with
  | HtmlFile doc => doc
  | PngFile _ => ∅
  end.

(** ** Exceptions *)

(** The errors Playwright raises, named after the call that raises them:
    [launch] when no browser runtime is installed, [goto] when the target
    cannot be loaded, an action such as [fill] whose element never becomes
    actionable, and any call on a browser or driver that is gone.  The
    last two are Python's own: [os.getcwd] in a directory that has been
    removed, and [print] of a line the standard output cannot encode. *)
Inductive exn :=
| EnvironmentError
| NavigationError (url : string)
| ActionError (selector : string)
| TargetClosedError
| FileNotFoundError
| UnicodeEncodeError (line : string).

Inductive outcome (A : Type) :=
| Ok (a : A)
| Raise (e : exn).
Arguments Ok {A} a.
Arguments Raise {A} e.

(** ** Handles of the Playwright API *)

Inductive Playwright := PlaywrightAPI.
Inductive BrowserType := Chromium | Firefox | Webkit.
Definition chromium (p : Playwright) : BrowserType := Chromium.

Record Browser := BrowserHandle { browser_type : BrowserType; browser_headless : bool }.
Record Page := PageHandle { page_browser : Browser }.
Record Locator := LocatorHandle { loc_page : Page; loc_selector : string }.

(** ** The calls the script can make, as they are logged *)

Inductive call :=
| CEnter
| CLaunch (bt : BrowserType) (headless : bool)
| CNewPage
| CGetcwd
| CPrint (line : string)
| CGoto (url : string)
| CIsVisible (selector : string)
| CFill (selector value : string)
| CScreenshot (path : string) (full_page : option bool)
| CClose
| CExit.

#[global] Instance element_eq_dec : EqDecision element.
Proof. solve_decision. Defined.
#[global] Instance image_eq_dec : EqDecision image.
Proof. solve_decision. Defined.
#[global] Instance file_eq_dec : EqDecision file.
Proof. solve_decision. Defined.
#[global] Instance exn_eq_dec : EqDecision exn.
Proof. solve_decision. Defined.
#[global] Instance BrowserType_eq_dec : EqDecision BrowserType.
Proof. solve_decision. Defined.
#[global] Instance call_eq_dec : EqDecision call.
Proof. solve_decision. Defined.

(** ** The world *)

(** What the process finds when it starts: its arguments and environment,
    its working directory, whether a Chromium runtime is installed, and the
    files on disk by absolute path. *)
Record Host := {
  h_argv : list string;
  h_environ : gmap string string;
  h_cwd : string;
  h_runtime : bool;
  h_fs : gmap string file
}.

(** [w_page] is the DOM the page last rendered ([None] before a page is
    opened); it stays readable after the browser is gone, the way a test
    double keeps it, so that the effect of a run on the DOM can be stated.
    [w_driver] and [w_browser] say whether the Playwright driver process
    and the browser process are running. *)
Record World := {
  w_host : Host;
  w_fs : gmap string file;
  w_stdout : list string;
  w_stderr : list string;
  w_driver : bool;
  w_browser : bool;
  w_page : option document;
  w_trace : list call
}.

Definition boot (h : Host) : World :=
  {| w_host := h; w_fs := h_fs h; w_stdout := []; w_stderr := [];
     w_driver := false; w_browser := false; w_page := None; w_trace := [] |}.

(** Updates of one field. *)
Definition set_fs (fs : gmap string file) (w : World) : World :=
  let '(Build_World h _ out err drv brw pg tr) := w in
  Build_World h fs out err drv brw pg tr.

Definition set_stdout (out : list string) (w : World) : World :=
  let '(Build_World h fs _ err drv brw pg tr) := w in
  Build_World h fs out err drv brw pg tr.

Definition set_stderr (err : list string) (w : World) : World :=
  let '(Build_World h fs out _ drv brw pg tr) := w in
  Build_World h fs out err drv brw pg tr.

Definition set_driver (drv : bool) (w : World) : World :=
  let '(Build_World h fs out err _ brw pg tr) := w in
  Build_World h fs out err drv brw pg tr.

Definition set_browser (brw : bool) (w : World) : World :=
  let '(Build_World h fs out err drv _ pg tr) := w in
  Build_World h fs out err drv brw pg tr.

Definition set_page (pg : option document) (w : World) : World :=
  let '(Build_World h fs out err drv brw _ tr) := w in
  Build_World h fs out err drv brw pg tr.

Definition set_trace (tr : list call) (w : World) : World :=
  let '(Build_World h fs out err drv brw pg _) := w in
  Build_World h fs out err drv brw pg tr.

(** ** The monad *)

Definition M (A : Type) : Type := World -> outcome A * World.

Definition ret {A} (a : A) : M A := fun w => (Ok a, w).

Definition raise {A} (e : exn) : M A := fun w => (Raise e, w).

Definition bind {A B} (m : M A) (k : A -> M B) : M B :=
  fun w =>
    match m w with
    | (Ok a, w') => k a w'
    | (Raise e, w') => (Raise e, w')
    end.

Definition get : M World := fun w => (Ok w, w).

Definition modify (f : World -> World) : M unit := fun w => (Ok tt, f w).

Declare Scope py_scope.
Delimit Scope py_scope with py.
Notation "x <- m ;; k" := (bind m (fun x => k))
  (at level 100, m at next level, right associativity) : py_scope.
Notation "m ;; k" := (bind m (fun _ => k))
  (at level 100, right associativity) : py_scope.
#[local] Open Scope py_scope.

(** [try: m finally: fin]: [fin] runs whether [m] returns or raises, and
    the outcome of [m] stands unless [fin] raises itself. *)
Definition finally {A} (m : M A) (fin : M unit) : M A :=
  fun w =>
    match m w with
    | (r, w') =>
        match fin w' with
        | (Ok _, w'') => (r, w'')
        | (Raise e, w'') => (Raise e, w'')
        end
    end.

(** A context manager whose [__exit__] returns nothing, so that it lets an
    exception of the block through. *)
Record context_manager (P : Type) := ContextManager {
  cm_enter : M P;
  cm_exit : M unit
}.
Arguments cm_enter {P} _.
Arguments cm_exit {P} _.

(** [with cm as p: body]. *)
Definition with_ {P A} (cm : context_manager P) (body : P -> M A) : M A :=
  p <- cm_enter cm ;;
  finally (body p) (cm_exit cm).

Definition log (c : call) : M unit :=
  modify (fun w => set_trace (w_trace w ++ [c]) w).

(** ** Paths and URLs *)

Fixpoint strip_prefix (p s : string) : option string :=
  match p with
  | EmptyString => Some s
  | String a p' =>
      match s with
      | EmptyString => None
      | String b s' => if Ascii.eqb a b then strip_prefix p' s' else None
      end
  end.

Definition hex_digit (c : ascii) : option N :=
  let n := N_of_ascii c in
  if ((48 <=? n) && (n <=? 57))%N then Some (n - 48)%N
  else if ((65 <=? n) && (n <=? 70))%N then Some (n - 55)%N
  else if ((97 <=? n) && (n <=? 102))%N then Some (n - 87)%N
  else None.

(** A URL parser first drops every tab, line feed and carriage return of
    its input. *)
Definition tab_or_newline (c : ascii) : bool :=
  (N_of_ascii c =? 9)%N || (N_of_ascii c =? 10)%N || (N_of_ascii c =? 13)%N.

Fixpoint remove_tab_newline (s : string) : string :=
  match s with
  | EmptyString => EmptyString
  | String c rest =>
      if tab_or_newline c then remove_tab_newline rest
      else String c (remove_tab_newline rest)
  end.

(** Then the path ends at the first [?] (query) or [#] (fragment), a
    backslash is read as a slash, and [%XX] stands for the character of
    code XX. *)
Fixpoint decode_path (s : string) : string :=
  match s with
  | EmptyString => EmptyString
  | String c rest =>
      if Ascii.eqb c "#" || Ascii.eqb c "?" then EmptyString
      else if Ascii.eqb c "\" then String "/" (decode_path rest)
      else if Ascii.eqb c "%" then
        match rest with
        | String hi (String lo rest') =>
            match hex_digit hi, hex_digit lo with
            | Some a, Some b =>
                String (ascii_of_N (16 * a + b)) (decode_path rest')
            | _, _ => String c (decode_path rest)
            end
        | _ => String c (decode_path rest)
        end
      else String c (decode_path rest)
  end.

(** The file a browser opens for the text that follows [file://] in a
    URL. *)
Definition url_path (s : string) : string :=
  decode_path (remove_tab_newline s).

(** The scheme of a URL: the text before the first colon. *)
Fixpoint url_scheme (url : string) : string :=
  match url with
  | EmptyString => EmptyString
  | String c rest =>
      if Ascii.eqb c ":" then EmptyString else String c (url_scheme rest)
  end.

(** Only local files are served: a URL of another scheme loads nothing.
    The authority is taken to be empty, as it is for the absolute paths
    that [os.getcwd] returns. *)
Definition file_url_path (url : string) : option string :=
  url_path <$> strip_prefix "file://" url.

Definition load (fs : gmap string file) (url : string) : option document :=
  path ← file_url_path url; file_document <$> fs !! path.

(** A relative path names a file under the working directory. *)
Definition resolve (cwd path : string) : string :=
  match path with
  | String c _ => if Ascii.eqb c "/" then path else cwd +:+ "/" +:+ path
  | EmptyString => cwd
  end.

(** The element a CSS selector [#id] designates. *)
Definition selector_id (selector : string) : option string :=
  match selector with
  | String c id => if Ascii.eqb c "#" then Some id else None
  | EmptyString => None
  end.

Definition find (selector : string) (pg : option document)
  : option (string * document * element) :=
  id ← selector_id selector; doc ← pg; e ← doc !! id; Some (id, doc, e).

(** ** Playwright and the operating system *)

Definition require_browser : M unit :=
  w <- get ;;
  if w_browser w then ret tt else raise TargetClosedError.

(** [sync_playwright()]: entering starts the driver; leaving stops it, and
    the driver takes down every browser it launched. *)
Definition sync_playwright : context_manager Playwright :=
  {| cm_enter :=
       (log CEnter ;;
        modify (set_driver true) ;;
        ret PlaywrightAPI);
     cm_exit :=
       (log CExit ;;
        modify (fun w => set_browser false (set_driver false w))) |}.

Definition launch (bt : BrowserType) (headless : bool) : M Browser :=
  log (CLaunch bt headless) ;;
  w <- get ;;
  if negb (w_driver w) then raise TargetClosedError
  else if negb (h_runtime (w_host w)) then raise EnvironmentError
  else
    modify (set_browser true) ;;
    ret (BrowserHandle bt headless).

Definition new_page (b : Browser) : M Page :=
  log CNewPage ;;
  require_browser ;;
  modify (set_page (Some ∅)) ;;
  ret (PageHandle b).

(** [os.getcwd()] and [print] in a process whose working directory is
    there and whose standard output takes any text; [Py.os_getcwd] and
    [Py.print] below are the two calls without this assumption. *)
Definition os_getcwd : M string :=
  log CGetcwd ;;
  w <- get ;;
  ret (h_cwd (w_host w)).

Definition print (line : string) : M unit :=
  log (CPrint line) ;;
  modify (fun w => set_stdout (w_stdout w ++ [line]) w).

Definition goto (pg : Page) (url : string) : M unit :=
  log (CGoto url) ;;
  require_browser ;;
  w <- get ;;
  match w_page w with
  | None => raise TargetClosedError
  | Some _ =>
      match load (w_fs w) url with
      | Some doc => modify (set_page (Some doc))
      | None => raise (NavigationError url)
      end
  end.

(** A locator is only a description of how to find the element. *)
Definition locator (pg : Page) (selector : string) : Locator :=
  LocatorHandle pg selector.

(** [locator.is_visible()] does not wait: an element that is not there is
    not visible. *)
Definition is_visible (l : Locator) : M bool :=
  log (CIsVisible (loc_selector l)) ;;
  require_browser ;;
  w <- get ;;
  match find (loc_selector l) (w_page w) with
  | Some (_, _, e) => ret (el_visible e)
  | None => ret false
  end.

(** [locator.fill(value)] waits for the element to be visible and editable
    and gives up with an error when it never is. *)
Definition fill (l : Locator) (value : string) : M unit :=
  log (CFill (loc_selector l) value) ;;
  require_browser ;;
  w <- get ;;
  match find (loc_selector l) (w_page w) with
  | Some (id, doc, e) =>
      if el_visible e && el_editable e then
        modify (set_page (Some (<[id := set_value value e]> doc)))
      else raise (ActionError (loc_selector l))
  | None => raise (ActionError (loc_selector l))
  end.

(** [page.screenshot(path=..., full_page=...)]: [full_page] left out means
    the viewport only. *)
Definition screenshot (pg : Page) (path : string) (full_page : option bool)
  : M unit :=
  log (CScreenshot path full_page) ;;
  require_browser ;;
  w <- get ;;
  match w_page w with
  | None => raise TargetClosedError
  | Some doc =>
      modify (set_fs (<[resolve (h_cwd (w_host w)) path :=
                          PngFile (Image (default false full_page) doc)]>
                        (w_fs w)))
  end.

Definition close (b : Browser) : M unit :=
  log CClose ;;
  modify (set_browser false).

(** ** The script *)

Definition run : M unit :=
  with_ sync_playwright (fun p =>
    browser <- launch (chromium p) true ;;
    page <- new_page browser ;;
    cwd <- os_getcwd ;;
    let filepath := "file://" +:+ cwd +:+ "/src/taskpane/taskpane.html" in
    print ("Navigating to " +:+ filepath) ;;
    goto page filepath ;;
    let base_url_input := locator page "#baseUrlInput" in
    visible <- is_visible base_url_input ;;
    (if visible : bool then
       print "Base URL input is visible" ;;
       fill base_url_input "https://api.gptbots.ai/v1"
     else
       print "Base URL input NOT visible") ;;
    screenshot page "verification/taskpane_screenshot.png" None ;;
    close browser).

(** [if __name__ == '__main__': run()]: an exception that nothing catches
    ends the process with a traceback on the standard error stream and
    status 1; otherwise the status is 0. *)
Definition traceback (e : exn) : string :=
  match e with
  | EnvironmentError => "playwright Error: browser executable does not exist"
  | NavigationError url => "playwright Error: net::ERR_FILE_NOT_FOUND at " +:+ url
  | ActionError selector => "playwright TimeoutError: Locator.fill: " +:+ selector
  | TargetClosedError => "playwright Error: target closed"
  | FileNotFoundError => "FileNotFoundError: [Errno 2] No such file or directory"
  | UnicodeEncodeError line => "UnicodeEncodeError: can't encode " +:+ line
  end.

Definition main (h : Host) : Z * World :=
  match run (boot h) with
  | (Ok _, w) => (0, w)
  | (Raise e, w) => (1, set_stderr (w_stderr w ++ [traceback e]) w)
  end.

(** ** The script in the hands of the interpreter *)

(** The encoding of the standard output comes from the environment of the
    process.  Of the settings only [PYTHONIOENCODING=ascii] is
    distinguished; any other environment is taken to give UTF-8, which
    encodes every line. *)
Inductive encoding := AsciiOnly | Utf8.

Definition stdout_encoding (env : gmap string string) : encoding :=
  if decide (env !! "PYTHONIOENCODING" = Some "ascii") then AsciiOnly
  else Utf8.

Fixpoint is_ascii (s : string) : bool :=
  match s with
  | EmptyString => true
  | String c rest => (N_of_ascii c <? 128)%N && is_ascii rest
  end.

Definition can_print (env : gmap string string) (line : string) : bool :=
  match stdout_encoding env with
  | AsciiOnly => is_ascii line
  | Utf8 => true
  end.

(** The script once more, with [os.getcwd] and [print] as the interpreter
    has them.  A process whose working directory has been removed has no
    working directory: its [h_cwd] is the empty string, which is no path,
    and [os.getcwd()] raises.  [print] encodes the line for the standard
    output first and raises when it cannot, with nothing written. *)
Module Py.

Definition os_getcwd : M string :=
  log CGetcwd ;;
  w <- get ;;
  if decide (h_cwd (w_host w) = "") then raise FileNotFoundError
  else ret (h_cwd (w_host w)).

Definition print (line : string) : M unit :=
  log (CPrint line) ;;
  w <- get ;;
  if can_print (h_environ (w_host w)) line then
    modify (fun w => set_stdout (w_stdout w ++ [line]) w)
  else raise (UnicodeEncodeError line).

Definition run : M unit :=
  with_ sync_playwright (fun p =>
    browser <- launch (chromium p) true ;;
    page <- new_page browser ;;
    cwd <- os_getcwd ;;
    let filepath := "file://" +:+ cwd +:+ "/src/taskpane/taskpane.html" in
    print ("Navigating to " +:+ filepath) ;;
    goto page filepath ;;
    let base_url_input := locator page "#baseUrlInput" in
    visible <- is_visible base_url_input ;;
    (if visible : bool then
       print "Base URL input is visible" ;;
       fill base_url_input "https://api.gptbots.ai/v1"
     else
       print "Base URL input NOT visible") ;;
    screenshot page "verification/taskpane_screenshot.png" None ;;
    close browser).

Definition main (h : Host) : Z * World :=
  match run (boot h) with
  | (Ok _, w) => (0, w)
  | (Raise e, w) => (1, set_stderr (w_stderr w ++ [traceback e]) w)
  end.

End Py.

(** * Properties *)

(** ** Vocabulary of the statements *)

(** The URL the f-string builds for a working directory. *)
Definition taskpane_url (cwd : string) : string :=
  "file://" +:+ cwd +:+ "/src/taskpane/taskpane.html".

Definition nav_line (cwd : string) : string :=
  "Navigating to " +:+ taskpane_url cwd.

(** The calls of a run up to and including the navigation. *)
Definition calls_to_goto (cwd : string) : list call :=
  [CEnter; CLaunch Chromium true; CNewPage; CGetcwd;
   CPrint (nav_line cwd); CGoto (taskpane_url cwd)].

(** The world a run leaves: the processes are gone, nothing was written to
    the standard error stream by [run] itself. *)
Definition left (h : Host) (fs : gmap string file) (out : list string)
    (pg : option document) (tr : list call) : World :=
  {| w_host := h; w_fs := fs; w_stdout := out; w_stderr := [];
     w_driver := false; w_browser := false; w_page := pg; w_trace := tr |}.

(** The files after a screenshot of [doc] was saved from directory [cwd]. *)
Definition saved (cwd : string) (doc : document) (fs : gmap string file)
  : gmap string file :=
  <[resolve cwd "verification/taskpane_screenshot.png" :=
      PngFile (Image false doc)]> fs.

(** The five ways a run can go, each with the host it needs and the
    outcome and world it leaves. *)
Inductive run_path (h : Host) : outcome unit * World -> Prop :=
| path_no_runtime :
    h_runtime h = false ->
    run_path h
      (Raise EnvironmentError,
       left h (h_fs h) [] None [CEnter; CLaunch Chromium true; CExit])
| path_not_loaded :
    h_runtime h = true ->
    load (h_fs h) (taskpane_url (h_cwd h)) = None ->
    run_path h
      (Raise (NavigationError (taskpane_url (h_cwd h))),
       left h (h_fs h) [nav_line (h_cwd h)] (Some ∅)
         (calls_to_goto (h_cwd h) ++ [CExit]))
| path_not_visible doc :
    h_runtime h = true ->
    load (h_fs h) (taskpane_url (h_cwd h)) = Some doc ->
    (forall e, doc !! "baseUrlInput" = Some e -> el_visible e = false) ->
    run_path h
      (Ok tt,
       left h (saved (h_cwd h) doc (h_fs h))
         [nav_line (h_cwd h); "Base URL input NOT visible"] (Some doc)
         (calls_to_goto (h_cwd h) ++
          [CIsVisible "#baseUrlInput"; CPrint "Base URL input NOT visible";
           CScreenshot "verification/taskpane_screenshot.png" None;
           CClose; CExit]))
| path_filled doc e :
    h_runtime h = true ->
    load (h_fs h) (taskpane_url (h_cwd h)) = Some doc ->
    doc !! "baseUrlInput" = Some e ->
    el_visible e = true ->
    el_editable e = true ->
    let doc' :=
      <["baseUrlInput" := set_value "https://api.gptbots.ai/v1" e]> doc in
    run_path h
      (Ok tt,
       left h (saved (h_cwd h) doc' (h_fs h))
         [nav_line (h_cwd h); "Base URL input is visible"] (Some doc')
         (calls_to_goto (h_cwd h) ++
          [CIsVisible "#baseUrlInput"; CPrint "Base URL input is visible";
           CFill "#baseUrlInput" "https://api.gptbots.ai/v1";
           CScreenshot "verification/taskpane_screenshot.png" None;
           CClose; CExit]))
| path_fill_refused doc e :
    h_runtime h = true ->
    load (h_fs h) (taskpane_url (h_cwd h)) = Some doc ->
    doc !! "baseUrlInput" = Some e ->
    el_visible e = true ->
    el_editable e = false ->
    run_path h
      (Raise (ActionError "#baseUrlInput"),
       left h (h_fs h)
         [nav_line (h_cwd h); "Base URL input is visible"] (Some doc)
         (calls_to_goto (h_cwd h) ++
          [CIsVisible "#baseUrlInput"; CPrint "Base URL input is visible";
           CFill "#baseUrlInput" "https://api.gptbots.ai/v1"; CExit])).

(** Paths that a URL carries unchanged: absolute, made of ASCII letters,
    digits, [/], [-], [_] and [.] only, and with no segment that starts
    with a dot (so none is [.] or [..]). *)
Definition plain_char (c : ascii) : bool :=
  let n := N_of_ascii c in
  ((48 <=? n) && (n <=? 57) || (65 <=? n) && (n <=? 90) ||
   (97 <=? n) && (n <=? 122) ||
   (n =? 45) || (n =? 46) || (n =? 47) || (n =? 95))%N.

Fixpoint plain_segments (s : string) : bool :=
  match s with
  | EmptyString => true
  | String c rest =>
      plain_char c &&
      negb (Ascii.eqb c "/" &&
            match rest with
            | String d _ => Ascii.eqb d "."
            | EmptyString => false
            end) &&
      plain_segments rest
  end.

Definition plain_path (s : string) : bool :=
  match s with
  | String c _ => Ascii.eqb c "/" && plain_segments s
  | EmptyString => false
  end.

(** A line was printed on the standard output. *)
Definition printed (line : string) (w : World) : Prop :=
  line ∈ w_stdout w.

(** The navigations and the observable steps of a call log. *)
Definition goto_url (c : call) : option string :=
  match c with
  | CGoto url => Some url
  | _ => None
  end.

Inductive step := Launch | Navigate | Query | Fill | Capture | Shutdown.

Definition step_of (c : call) : option step :=
  match c with
  | CLaunch _ _ => Some Launch
  | CGoto _ => Some Navigate
  | CIsVisible _ => Some Query
  | CFill _ _ => Some Fill
  | CScreenshot _ _ => Some Capture
  | CClose => Some Shutdown
  | _ => None
  end.

(** The calls between entering and leaving the [with] block in a run that
    nothing interrupts, by the answer of the visibility query. *)
Definition script_calls (cwd : string) (visible : bool) : list call :=
  [CLaunch Chromium true; CNewPage; CGetcwd;
   CPrint ("Navigating to " +:+ taskpane_url cwd);
   CGoto (taskpane_url cwd);
   CIsVisible "#baseUrlInput"] ++
  (if visible
   then [CPrint "Base URL input is visible";
         CFill "#baseUrlInput" "https://api.gptbots.ai/v1"]
   else [CPrint "Base URL input NOT visible"]) ++
  [CScreenshot "verification/taskpane_screenshot.png" None; CClose].



(** ** Hosts to run the script on *)

Definition checkout : string := "/home/dev/excel-ai-gemini-addin".

Definition text_input : element :=
  {| el_visible := true; el_editable := true; el_value := "" |}.
Definition hidden_input : element :=
  {| el_visible := false; el_editable := true; el_value := "" |}.
Definition disabled_input : element :=
  {| el_visible := true; el_editable := false; el_value := "" |}.

(** A task pane with the base URL input and a second field. *)
Definition taskpane (input : element) : document :=
  {[ "baseUrlInput" := input; "apiKeyInput" := text_input ]}.

Definition settings_only : document :=
  {[ "apiKeyInput" := text_input ]}.

Definition host_in (cwd : string) (fs : gmap string file) : Host :=
  {| h_argv := ["verification/verify_taskpane.py"]; h_environ := ∅;
     h_cwd := cwd; h_runtime := true; h_fs := fs |}.

Definition host_with (doc : document) : Host :=
  host_in checkout
    {[ "/home/dev/excel-ai-gemini-addin/src/taskpane/taskpane.html" :=
         HtmlFile doc ]}.

Definition host_ok : Host := host_with (taskpane text_input).
Definition host_hidden : Host := host_with (taskpane hidden_input).
Definition host_absent : Host := host_with settings_only.
Definition host_disabled : Host := host_with (taskpane disabled_input).
Definition host_missing : Host := host_in checkout ∅.

(** The checkout after an earlier run left its screenshot behind. *)
Definition host_stale : Host :=
  host_in checkout
    {[ "/home/dev/excel-ai-gemini-addin/src/taskpane/taskpane.html" :=
         HtmlFile (taskpane text_input);
       "/home/dev/excel-ai-gemini-addin/verification/taskpane_screenshot.png" :=
         PngFile (Image false ∅) ]}.


(** A machine on which no browser was installed. *)
Definition host_bare : Host :=
  {| h_argv := ["verification/verify_taskpane.py"]; h_environ := ∅;
     h_cwd := checkout; h_runtime := false; h_fs := h_fs host_ok |}.

(** A checkout under a directory whose name has a [#] in it. *)
Definition host_sharp : Host :=
  host_in "/home/dev/c#/addin"
    {[ "/home/dev/c#/addin/src/taskpane/taskpane.html" :=
         HtmlFile (taskpane text_input) ]}.

(** The screenshots a call log asks for: the path and the [full_page]
    option of each. *)
Definition shot_call (c : call) : option (string * option bool) :=
  match c with
  | CScreenshot path full_page => Some (path, full_page)
  | _ => None
  end.




(** A call was made. *)
Definition called (c : call) (w : World) : Prop :=
  c ∈ w_trace w.




(** The host as a run has left it, for the next run. *)
Definition rerun (h : Host) : Host :=
  {| h_argv := h_argv h; h_environ := h_environ h; h_cwd := h_cwd h;
     h_runtime := h_runtime h; h_fs := w_fs (main h).2 |}.

(** ** Symbolic execution of the script *)

#[local] Arguments String.append : simpl never.
#[local] Arguments load : simpl never.
#[local] Arguments resolve : simpl never.

Ltac unfold_script :=
  unfold run, with_, finally, bind, taskpane_url, nav_line, calls_to_goto,
    left, saved in *.

Ltac finish_run := cbn; reflexivity.

(** Membership in, and absence from, a call log or an output that is
    written out. *)
Ltac in_list :=
  unfold calls_to_goto; cbn [app];
  repeat first [apply list_elem_of_here | apply list_elem_of_further].

Ltac not_in_list :=
  unfold calls_to_goto; cbn [app];
  rewrite ?not_elem_of_cons; repeat split;
  first [done | apply not_elem_of_nil].

Lemma run_no_runtime h :
  h_runtime h = false ->
  run (boot h) =
    (Raise EnvironmentError,
     left h (h_fs h) [] None [CEnter; CLaunch Chromium true; CExit]).
Proof.
  intros Hrt. unfold_script. cbn. rewrite Hrt. finish_run.
Qed.

Lemma run_not_loaded h :
  h_runtime h = true ->
  load (h_fs h) (taskpane_url (h_cwd h)) = None ->
  run (boot h) =
    (Raise (NavigationError (taskpane_url (h_cwd h))),
     left h (h_fs h) [nav_line (h_cwd h)] (Some ∅)
       (calls_to_goto (h_cwd h) ++ [CExit])).
Proof.
  intros Hrt Hload. unfold_script. cbn. rewrite Hrt. cbn.
  rewrite Hload. finish_run.
Qed.

Lemma run_not_visible h doc :
  h_runtime h = true ->
  load (h_fs h) (taskpane_url (h_cwd h)) = Some doc ->
  (forall e, doc !! "baseUrlInput" = Some e -> el_visible e = false) ->
  run (boot h) =
    (Ok tt,
     left h (saved (h_cwd h) doc (h_fs h))
       [nav_line (h_cwd h); "Base URL input NOT visible"] (Some doc)
       (calls_to_goto (h_cwd h) ++
        [CIsVisible "#baseUrlInput"; CPrint "Base URL input NOT visible";
         CScreenshot "verification/taskpane_screenshot.png" None;
         CClose; CExit])).
Proof.
  intros Hrt Hload Hhidden. unfold_script. cbn. rewrite Hrt. cbn.
  rewrite Hload. cbn.
  destruct (doc !! "baseUrlInput") as [e|] eqn:He; cbn.
  - rewrite (Hhidden e eq_refl). finish_run.
  - finish_run.
Qed.

Lemma run_filled h doc e :
  h_runtime h = true ->
  load (h_fs h) (taskpane_url (h_cwd h)) = Some doc ->
  doc !! "baseUrlInput" = Some e ->
  el_visible e = true ->
  el_editable e = true ->
  run (boot h) =
    (Ok tt,
     left h
       (saved (h_cwd h)
          (<["baseUrlInput" := set_value "https://api.gptbots.ai/v1" e]> doc)
          (h_fs h))
       [nav_line (h_cwd h); "Base URL input is visible"]
       (Some
          (<["baseUrlInput" := set_value "https://api.gptbots.ai/v1" e]> doc))
       (calls_to_goto (h_cwd h) ++
        [CIsVisible "#baseUrlInput"; CPrint "Base URL input is visible";
         CFill "#baseUrlInput" "https://api.gptbots.ai/v1";
         CScreenshot "verification/taskpane_screenshot.png" None;
         CClose; CExit])).
Proof.
  intros Hrt Hload He Hvis Hedit. unfold_script. cbn. rewrite Hrt. cbn.
  rewrite Hload. cbn. rewrite He. cbn. rewrite Hvis. cbn.
  rewrite He. cbn. rewrite Hvis, Hedit. finish_run.
Qed.

Lemma run_fill_refused h doc e :
  h_runtime h = true ->
  load (h_fs h) (taskpane_url (h_cwd h)) = Some doc ->
  doc !! "baseUrlInput" = Some e ->
  el_visible e = true ->
  el_editable e = false ->
  run (boot h) =
    (Raise (ActionError "#baseUrlInput"),
     left h (h_fs h)
       [nav_line (h_cwd h); "Base URL input is visible"] (Some doc)
       (calls_to_goto (h_cwd h) ++
        [CIsVisible "#baseUrlInput"; CPrint "Base URL input is visible";
         CFill "#baseUrlInput" "https://api.gptbots.ai/v1"; CExit])).
Proof.
  intros Hrt Hload He Hvis Hedit. unfold_script. cbn. rewrite Hrt. cbn.
  rewrite Hload. cbn. rewrite He. cbn. rewrite Hvis. cbn.
  rewrite He. cbn. rewrite Hvis, Hedit. finish_run.
Qed.

(** Every run follows one of the five paths. *)
Lemma run_paths h : run_path h (run (boot h)).
Proof.
  destruct (h_runtime h) eqn:Hrt.
  2: { rewrite run_no_runtime by done. by constructor. }
  destruct (load (h_fs h) (taskpane_url (h_cwd h))) as [doc|] eqn:Hload.
  2: { rewrite run_not_loaded by done. by constructor. }
  destruct (doc !! "baseUrlInput") as [e|] eqn:He.
  2: { rewrite (run_not_visible h doc) by (done || congruence).
       constructor; (done || congruence). }
  destruct (el_visible e) eqn:Hvis.
  2: { rewrite (run_not_visible h doc) by (done || congruence).
       constructor; (done || congruence). }
  destruct (el_editable e) eqn:Hedit.
  - rewrite (run_filled h doc e) by done. by apply (path_filled h doc e).
  - rewrite (run_fill_refused h doc e) by done.
    by apply (path_fill_refused h doc e).
Qed.

(** ** Reading the URL back *)

(** A plain character is none of those a URL gives a meaning to, and is
    ASCII. *)
Lemma plain_char_is_ordinary c :
  plain_char c = true ->
  tab_or_newline c = false /\
  Ascii.eqb c "#" || Ascii.eqb c "?" = false /\
  Ascii.eqb c "\" = false /\
  Ascii.eqb c "%" = false /\
  (N_of_ascii c <? 128)%N = true.
Proof.
  destruct c as [[] [] [] [] [] [] [] []]; intros H;
    first [discriminate H | by repeat split].
Qed.

(** Decoding leaves a plain path as it is. *)
Lemma url_path_plain s t :
  plain_segments s = true -> url_path (s +:+ t) = s +:+ url_path t.
Proof.
  unfold url_path.
  induction s as [|c s IH]; intros Hplain; [reflexivity|].
  cbn [plain_segments] in Hplain.
  apply andb_prop in Hplain as [Hc Hs]. apply andb_prop in Hc as [Hc _].
  destruct (plain_char_is_ordinary c Hc) as (Htab & Hcut & Hbs & Hpct & _).
  change (String c s +:+ t) with (String c (s +:+ t)).
  cbn [remove_tab_newline]. rewrite Htab.
  cbn [decode_path]. rewrite Hcut, Hbs, Hpct.
  rewrite (IH Hs). reflexivity.
Qed.

Lemma plain_path_segments s :
  plain_path s = true -> plain_segments s = true /\ s ≠ "".
Proof.
  destruct s as [|c s]; [discriminate|]. unfold plain_path.
  intros [_ H]%andb_prop. by split.
Qed.

Lemma load_plain fs cwd :
  plain_path cwd = true ->
  load fs (taskpane_url cwd)
    = file_document <$> fs !! (cwd +:+ "/src/taskpane/taskpane.html").
Proof.
  intros [Hplain _]%plain_path_segments.
  unfold load, file_url_path, taskpane_url.
  change (strip_prefix "file://"
            ("file://" +:+ cwd +:+ "/src/taskpane/taskpane.html"))
    with (Some (cwd +:+ "/src/taskpane/taskpane.html")).
  cbn [fmap option_fmap option_map mbind option_bind].
  rewrite (url_path_plain _ _ Hplain). reflexivity.
Qed.

(** A plain path is ASCII, and so is the line that announces it. *)
Lemma is_ascii_append s t :
  is_ascii (s +:+ t) = is_ascii s && is_ascii t.
Proof.
  induction s as [|c s IH]; [reflexivity|].
  change (String c s +:+ t) with (String c (s +:+ t)).
  cbn [is_ascii]. by rewrite IH, andb_assoc.
Qed.

Lemma plain_segments_ascii s : plain_segments s = true -> is_ascii s = true.
Proof.
  induction s as [|c s IH]; [done|]. cbn [plain_segments is_ascii].
  intros [[Hc _]%andb_prop Hs]%andb_prop.
  destruct (plain_char_is_ordinary c Hc) as (_ & _ & _ & _ & ->).
  by apply IH.
Qed.

Lemma plain_path_can_be_printed env cwd :
  plain_path cwd = true -> can_print env (nav_line cwd) = true.
Proof.
  intros [Hplain _]%plain_path_segments. unfold can_print.
  destruct (stdout_encoding env); [|reflexivity].
  unfold nav_line, taskpane_url. rewrite !is_ascii_append.
  by rewrite (plain_segments_ascii _ Hplain).
Qed.

Lemma length_append s t :
  String.length (s +:+ t) = (String.length s + String.length t)%nat.
Proof.
  induction s as [|c s IH]; [reflexivity|].
  change (String c s +:+ t) with (String c (s +:+ t)).
  cbn [String.length]. by rewrite IH.
Qed.

(** Decoding never makes a path longer, so the screenshot, whose path is
    longer than the page's, never replaces the page. *)
Lemma decode_path_length_bounded n s :
  (String.length s <= n)%nat ->
  (String.length (decode_path s) <= String.length s)%nat.
Proof.
  revert s. induction n as [n IH] using lt_wf_ind. intros s Hn.
  destruct s as [|c rest]; [done|].
  cbn [decode_path String.length] in *.
  assert (Hrest :
    (String.length (decode_path rest) <= String.length rest)%nat).
  { apply (IH (String.length rest)); lia. }
  destruct (Ascii.eqb c "#" || Ascii.eqb c "?"); [cbn; lia|].
  destruct (Ascii.eqb c "\"); [cbn; lia|].
  destruct (Ascii.eqb c "%"); [|cbn; lia].
  destruct rest as [|hi [|lo rest']]; try (cbn in *; lia).
  destruct (hex_digit hi), (hex_digit lo); try (cbn [String.length] in *; lia).
  cbn [String.length] in *.
  assert ((String.length (decode_path rest') <= String.length rest')%nat).
  { apply (IH (String.length rest')); lia. }
  lia.
Qed.

Lemma remove_tab_newline_length s :
  (String.length (remove_tab_newline s) <= String.length s)%nat.
Proof.
  induction s as [|c s IH]; [done|]. cbn [remove_tab_newline].
  destruct (tab_or_newline c); cbn [String.length]; lia.
Qed.

Lemma url_path_length s :
  (String.length (url_path s) <= String.length s)%nat.
Proof.
  unfold url_path.
  pose proof (decode_path_length_bounded _ (remove_tab_newline s) (le_n _)).
  pose proof (remove_tab_newline_length s). lia.
Qed.

Lemma screenshot_is_not_the_page cwd :
  resolve cwd "verification/taskpane_screenshot.png"
    ≠ url_path (cwd +:+ "/src/taskpane/taskpane.html").
Proof.
  intros Heq. apply (f_equal String.length) in Heq.
  pose proof (url_path_length (cwd +:+ "/src/taskpane/taskpane.html"))
    as Hle.
  rewrite <- Heq in Hle.
  change (resolve cwd "verification/taskpane_screenshot.png")
    with (cwd +:+ "/verification/taskpane_screenshot.png") in Hle.
  rewrite !length_append in Hle. cbn in Hle. lia.
Qed.

Lemma load_saved cwd doc fs :
  load (saved cwd doc fs) (taskpane_url cwd) = load fs (taskpane_url cwd).
Proof.
  unfold load, file_url_path, taskpane_url, saved.
  change (strip_prefix "file://"
            ("file://" +:+ cwd +:+ "/src/taskpane/taskpane.html"))
    with (Some (cwd +:+ "/src/taskpane/taskpane.html")).
  cbn [fmap option_fmap option_map mbind option_bind].
  rewrite lookup_insert_ne by apply screenshot_is_not_the_page.
  reflexivity.
Qed.

(** The navigation line is neither of the two diagnostic lines. *)
Lemma nav_line_is_no_diagnostic cwd :
  nav_line cwd ≠ "Base URL input is visible" /\
  nav_line cwd ≠ "Base URL input NOT visible".
Proof. split; intros H; vm_compute in H; discriminate H. Qed.

(** ** The script in the hands of the interpreter *)

#[local] Arguments can_print : simpl never.

Lemma diagnostics_can_be_printed env :
  can_print env "Base URL input is visible" = true /\
  can_print env "Base URL input NOT visible" = true.
Proof. unfold can_print. by destruct (stdout_encoding env). Qed.

Ltac unfold_py_script :=
  unfold Py.run, Py.os_getcwd, Py.print, with_, finally, bind,
    nav_line, calls_to_goto, taskpane_url, left, saved in *.



(** With a working directory and a standard output that takes the
    navigation line, the interpreter runs the script as [run] has it. *)
Lemma py_run_is_run h :
  (h_runtime h = true ->
   h_cwd h ≠ "" /\ can_print (h_environ h) (nav_line (h_cwd h)) = true) ->
  Py.run (boot h) = run (boot h).
Proof.
  intros Hfine.
  destruct (diagnostics_can_be_printed (h_environ h)) as [Hvisible Hnot].
  destruct (run_paths h) as [H1|H1 H2|doc H1 H2 H3|doc e H1 H2 H3 H4 H5 doc'|doc e H1 H2 H3 H4 H5].
  - unfold_py_script. cbn. rewrite H1. finish_run.
  - destruct (Hfine H1) as [Hcwd Hprint].
    unfold_py_script. cbn. rewrite H1. cbn.
    rewrite (decide_False (P := h_cwd h = "")) by assumption. cbn.
    rewrite Hprint. cbn. rewrite H2. finish_run.
  - destruct (Hfine H1) as [Hcwd Hprint].
    unfold_py_script. cbn. rewrite H1. cbn.
    rewrite (decide_False (P := h_cwd h = "")) by assumption. cbn.
    rewrite Hprint. cbn. rewrite H2. cbn.
    destruct (doc !! "baseUrlInput") as [e|] eqn:He; cbn.
    + rewrite (H3 e eq_refl). cbn. rewrite Hnot. finish_run.
    + rewrite Hnot. finish_run.
  - destruct (Hfine H1) as [Hcwd Hprint]. subst doc'.
    unfold_py_script. cbn. rewrite H1. cbn.
    rewrite (decide_False (P := h_cwd h = "")) by assumption. cbn.
    rewrite Hprint. cbn. rewrite H2. cbn. rewrite H3. cbn. rewrite H4. cbn.
    rewrite Hvisible. cbn. rewrite H3. cbn. rewrite H4, H5. finish_run.
  - destruct (Hfine H1) as [Hcwd Hprint].
    unfold_py_script. cbn. rewrite H1. cbn.
    rewrite (decide_False (P := h_cwd h = "")) by assumption. cbn.
    rewrite Hprint. cbn. rewrite H2. cbn. rewrite H3. cbn. rewrite H4. cbn.
    rewrite Hvisible. cbn. rewrite H3. cbn. rewrite H4, H5. finish_run.
Qed.



(** * The claims *)

(** ** C1: a visible input is reported and filled *)

(** C1, as stated, fails on a visible input that does not accept text (a
    disabled one): the navigation succeeds and the element is visible, the
    script prints that it is visible and calls [fill], but [fill] raises
    and the element never holds the sample value. *)
Lemma visible_disabled_input_keeps_its_value :
  h_runtime host_disabled = true /\
  load (h_fs host_disabled) (taskpane_url (h_cwd host_disabled))
    = Some (taskpane disabled_input) /\
  taskpane disabled_input !! "baseUrlInput" = Some disabled_input /\
  el_visible disabled_input = true /\
  (run (boot host_disabled)).1 = Raise (ActionError "#baseUrlInput") /\
  ~ (exists doc' e',
       w_page (run (boot host_disabled)).2 = Some doc' /\
       doc' !! "baseUrlInput" = Some e' /\
       el_value e' = "https://api.gptbots.ai/v1").
Proof.
  repeat split; try reflexivity.
  intros (doc' & e' & Hpage & He' & Hval).
  rewrite (run_fill_refused host_disabled (taskpane disabled_input)
             disabled_input) in Hpage by reflexivity.
  cbn in Hpage. injection Hpage as <-.
  change (Some disabled_input = Some e') in He'.
  injection He' as <-. discriminate Hval.
Qed.

(** C1, amended: when the navigation succeeds and the element
    [baseUrlInput] is visible and accepts text, the run completes, prints
    [Base URL input is visible], calls [fill] with the literal
    [https://api.gptbots.ai/v1], and after the run the element's value is
    that string; the other elements are as they were loaded. *)
Theorem visible_input_is_filled h doc e :
  h_runtime h = true ->
  load (h_fs h) (taskpane_url (h_cwd h)) = Some doc ->
  doc !! "baseUrlInput" = Some e ->
  el_visible e = true ->
  el_editable e = true ->
  (run (boot h)).1 = Ok tt /\
  "Base URL input is visible" ∈ w_stdout (run (boot h)).2 /\
  CFill "#baseUrlInput" "https://api.gptbots.ai/v1"
    ∈ w_trace (run (boot h)).2 /\
  exists doc' e',
    w_page (run (boot h)).2 = Some doc' /\
    doc' !! "baseUrlInput" = Some e' /\
    el_value e' = "https://api.gptbots.ai/v1" /\
    forall id, id ≠ "baseUrlInput" -> doc' !! id = doc !! id.
Proof.
  intros Hrt Hload He Hvis Hedit.
  rewrite (run_filled h doc e) by assumption. cbn.
  split; [reflexivity|]. split; [in_list|]. split; [in_list|].
  eexists _, _. split; [reflexivity|]. split; [apply lookup_insert_eq|].
  split; [reflexivity|].
  intros id Hid. by apply lookup_insert_ne.
Qed.

Lemma visible_input_is_filled_on_host_ok :
  (run (boot host_ok)).1 = Ok tt /\
  "Base URL input is visible" ∈ w_stdout (run (boot host_ok)).2 /\
  CFill "#baseUrlInput" "https://api.gptbots.ai/v1"
    ∈ w_trace (run (boot host_ok)).2 /\
  exists doc' e',
    w_page (run (boot host_ok)).2 = Some doc' /\
    doc' !! "baseUrlInput" = Some e' /\
    el_value e' = "https://api.gptbots.ai/v1" /\
    forall id, id ≠ "baseUrlInput" ->
               doc' !! id = taskpane text_input !! id.
Proof.
  apply (visible_input_is_filled host_ok (taskpane text_input) text_input);
    reflexivity.
Defined.

(** ** C2: an absent or hidden input is reported, not an error *)

(** C2: when the navigation succeeds and the element [baseUrlInput] is
    absent or not visible, the run completes without raising (exit status
    0), prints [Base URL input NOT visible], never calls [fill], leaves the
    DOM as it was loaded, and still takes the screenshot and writes its
    file. *)
Theorem hidden_input_is_reported h doc :
  h_runtime h = true ->
  load (h_fs h) (taskpane_url (h_cwd h)) = Some doc ->
  (doc !! "baseUrlInput" = None \/
   exists e, doc !! "baseUrlInput" = Some e /\ el_visible e = false) ->
  (run (boot h)).1 = Ok tt /\
  (main h).1 = 0 /\
  "Base URL input NOT visible" ∈ w_stdout (run (boot h)).2 /\
  (forall selector value, CFill selector value ∉ w_trace (run (boot h)).2) /\
  w_page (run (boot h)).2 = Some doc /\
  CScreenshot "verification/taskpane_screenshot.png" None
    ∈ w_trace (run (boot h)).2 /\
  w_fs (run (boot h)).2
    !! resolve (h_cwd h) "verification/taskpane_screenshot.png"
    = Some (PngFile (Image false doc)).
Proof.
  intros Hrt Hload Hhidden.
  assert (Hnv : forall e, doc !! "baseUrlInput" = Some e ->
                          el_visible e = false).
  { intros e He. destruct Hhidden as [Hnone | (e' & He' & Hvis)];
      congruence. }
  unfold main. rewrite (run_not_visible h doc) by assumption. cbn.
  split; [reflexivity|]. split; [reflexivity|]. split; [in_list|].
  split; [intros selector value; not_in_list|].
  split; [reflexivity|]. split; [in_list|].
  unfold saved. apply lookup_insert_eq.
Qed.

Lemma hidden_input_is_reported_on_host_hidden :
  (run (boot host_hidden)).1 = Ok tt /\
  (main host_hidden).1 = 0 /\
  "Base URL input NOT visible" ∈ w_stdout (run (boot host_hidden)).2 /\
  (forall selector value,
     CFill selector value ∉ w_trace (run (boot host_hidden)).2) /\
  w_page (run (boot host_hidden)).2 = Some (taskpane hidden_input) /\
  CScreenshot "verification/taskpane_screenshot.png" None
    ∈ w_trace (run (boot host_hidden)).2 /\
  w_fs (run (boot host_hidden)).2
    !! resolve (h_cwd host_hidden) "verification/taskpane_screenshot.png"
    = Some (PngFile (Image false (taskpane hidden_input))).
Proof.
  apply (hidden_input_is_reported host_hidden (taskpane hidden_input)).
  - reflexivity.
  - reflexivity.
  - right. exists hidden_input. split; reflexivity.
Defined.

(** ** C3: the browser never outlives the run *)

(** C3: on every path of the run (completion with or without a visible
    input, a launch, navigation or fill that raises) the browser is
    launched inside the [with] block and, when the run ends, neither the
    browser nor the Playwright driver is running; the last call of every
    run is the exit of the [with] block, which releases them on the paths
    that do not reach [browser.close()]. *)
Theorem browser_is_always_released h :
  w_browser (run (boot h)).2 = false /\
  w_driver (run (boot h)).2 = false /\
  w_browser (main h).2 = false /\
  CLaunch Chromium true ∈ w_trace (run (boot h)).2 /\
  last (w_trace (run (boot h)).2) = Some CExit.
Proof.
  unfold main.
  destruct (run_paths h); cbn;
    (split; [reflexivity|]); (split; [reflexivity|]);
    (split; [reflexivity|]); (split; [in_list|reflexivity]).
Qed.

(** ** C4: a page that cannot be loaded is fatal *)

(** C4: on a host where the browser launches, if the target HTML file does
    not exist or cannot be loaded, [goto] raises the navigation error and
    nothing catches it: [run] ends with that exception, the process exits
    with status 1 and a traceback on standard error, no screenshot call is
    made and the files on disk are the ones found at the start. *)
Theorem unloadable_page_is_fatal h :
  h_runtime h = true ->
  load (h_fs h) (taskpane_url (h_cwd h)) = None ->
  (run (boot h)).1 = Raise (NavigationError (taskpane_url (h_cwd h))) /\
  (main h).1 = 1 /\
  (main h).1 ≠ 0 /\
  w_stderr (main h).2
    = [traceback (NavigationError (taskpane_url (h_cwd h)))] /\
  (forall path full_page,
     CScreenshot path full_page ∉ w_trace (main h).2) /\
  w_fs (main h).2 = h_fs h.
Proof.
  intros Hrt Hload. unfold main.
  rewrite (run_not_loaded h) by assumption. cbn.
  split; [reflexivity|]. split; [reflexivity|]. split; [done|].
  split; [reflexivity|]. split; [|reflexivity].
  intros path full_page. not_in_list.
Qed.

Lemma unloadable_page_is_fatal_on_host_missing :
  (run (boot host_missing)).1
    = Raise (NavigationError (taskpane_url (h_cwd host_missing))) /\
  (main host_missing).1 = 1 /\
  (main host_missing).1 ≠ 0 /\
  w_stderr (main host_missing).2
    = [traceback (NavigationError (taskpane_url (h_cwd host_missing)))] /\
  (forall path full_page,
     CScreenshot path full_page ∉ w_trace (main host_missing).2) /\
  w_fs (main host_missing).2 = h_fs host_missing.
Proof.
  apply (unloadable_page_is_fatal host_missing); reflexivity.
Defined.

(** ** C5: the navigation target is a local file of the working directory *)

(** C5: for every working directory, the only URL a run navigates to is
    [file://], the working directory and [/src/taskpane/taskpane.html]
    joined in this order (a run whose browser does not launch navigates
    nowhere), and the scheme of this URL is [file]. *)
Theorem navigation_target_is_a_local_file h :
  omap goto_url (w_trace (run (boot h)).2)
    = (if h_runtime h
       then ["file://" +:+ h_cwd h +:+ "/src/taskpane/taskpane.html"]
       else []) /\
  url_scheme ("file://" +:+ h_cwd h +:+ "/src/taskpane/taskpane.html")
    = "file" /\
  strip_prefix "file://"
    ("file://" +:+ h_cwd h +:+ "/src/taskpane/taskpane.html")
    = Some (h_cwd h +:+ "/src/taskpane/taskpane.html").
Proof.
  split; [|split; reflexivity].
  destruct (run_paths h) as [Hrt|Hrt ?|? Hrt ? ?|? ? Hrt ? ? ? ?|? ? Hrt ? ? ? ?];
    rewrite Hrt; reflexivity.
Qed.

(** ** C6: the screenshot *)

(** C6, as stated, fails twice.  On a page whose input is visible and
    accepts text the run saves a screenshot of the viewport: [screenshot]
    is called without [full_page], and no full-page image is at the fixed
    path.  On a page whose visible input refuses text the navigation
    succeeds and no screenshot is written at all. *)
Lemma no_full_page_screenshot :
  (h_runtime host_ok = true /\
   load (h_fs host_ok) (taskpane_url (h_cwd host_ok))
     = Some (taskpane text_input) /\
   (run (boot host_ok)).1 = Ok tt /\
   ~ (exists img,
        w_fs (run (boot host_ok)).2
          !! "/home/dev/excel-ai-gemini-addin/verification/taskpane_screenshot.png"
          = Some (PngFile img) /\
        img_full_page img = true)) /\
  (h_runtime host_disabled = true /\
   load (h_fs host_disabled) (taskpane_url (h_cwd host_disabled))
     = Some (taskpane disabled_input) /\
   w_fs (run (boot host_disabled)).2
     !! "/home/dev/excel-ai-gemini-addin/verification/taskpane_screenshot.png"
     = None).
Proof.
  repeat split; try reflexivity.
  intros (img & Hfile & Hfull).
  rewrite (run_filled host_ok (taskpane text_input) text_input) in Hfile
    by reflexivity.
  cbn in Hfile. unfold saved in Hfile.
  change (resolve (h_cwd host_ok) "verification/taskpane_screenshot.png")
    with "/home/dev/excel-ai-gemini-addin/verification/taskpane_screenshot.png"
    in Hfile.
  rewrite lookup_insert_eq in Hfile. injection Hfile as <-.
  discriminate Hfull.
Qed.

(** C6, amended: when the navigation succeeds and the visibility branch
    does not raise (the input is absent, hidden, or accepts text), the run
    calls [screenshot] with the fixed path
    [verification/taskpane_screenshot.png] and no [full_page] option, and
    writes an image of the viewport showing the page as it then is to that
    path under the working directory: the file is created or replaced,
    and every other file is untouched. *)
Theorem screenshot_is_saved h doc :
  h_runtime h = true ->
  load (h_fs h) (taskpane_url (h_cwd h)) = Some doc ->
  (forall e, doc !! "baseUrlInput" = Some e ->
             el_visible e = true -> el_editable e = true) ->
  exists shown,
    w_page (run (boot h)).2 = Some shown /\
    CScreenshot "verification/taskpane_screenshot.png" None
      ∈ w_trace (run (boot h)).2 /\
    w_fs (run (boot h)).2
      !! resolve (h_cwd h) "verification/taskpane_screenshot.png"
      = Some (PngFile (Image false shown)) /\
    forall path,
      path ≠ resolve (h_cwd h) "verification/taskpane_screenshot.png" ->
      w_fs (run (boot h)).2 !! path = h_fs h !! path.
Proof.
  intros Hrt Hload Hfillable.
  destruct (run_paths h)
    as [Hno|_ Hnone|doc1 _ Hl1 _|doc1 e1 _ Hl1 _ _ _ doc'|doc1 e1 _ Hl1 He1 Hv1 Hed1].
  - congruence.
  - congruence.
  - exists doc1. cbn. unfold saved.
    split; [done|]. split; [in_list|].
    split; [apply lookup_insert_eq|].
    intros path Hpath. by apply lookup_insert_ne.
  - exists doc'. cbn. unfold saved.
    split; [done|]. split; [in_list|].
    split; [apply lookup_insert_eq|].
    intros path Hpath. by apply lookup_insert_ne.
  - assert (doc1 = doc) as -> by congruence.
    rewrite (Hfillable e1 He1 Hv1) in Hed1. discriminate.
Qed.

Lemma screenshot_is_saved_on_host_stale :
  h_fs host_stale
    !! resolve (h_cwd host_stale) "verification/taskpane_screenshot.png"
    = Some (PngFile (Image false ∅)) /\
  exists shown,
    w_page (run (boot host_stale)).2 = Some shown /\
    CScreenshot "verification/taskpane_screenshot.png" None
      ∈ w_trace (run (boot host_stale)).2 /\
    w_fs (run (boot host_stale)).2
      !! resolve (h_cwd host_stale) "verification/taskpane_screenshot.png"
      = Some (PngFile (Image false shown)) /\
    forall path,
      path ≠ resolve (h_cwd host_stale)
               "verification/taskpane_screenshot.png" ->
      w_fs (run (boot host_stale)).2 !! path = h_fs host_stale !! path.
Proof.
  split; [reflexivity|].
  apply (screenshot_is_saved host_stale (taskpane text_input)).
  - reflexivity.
  - reflexivity.
  - intros e He _. change (Some text_input = Some e) in He.
    by injection He as <-.
Defined.

(** ** C7: the order of the steps *)

(** C7: the call log of every run is the entry of the [with] block, an
    initial segment of the one sequence the script lays down (launch, new
    page, working directory, the navigation line, navigation, visibility
    query, diagnostic line, the fill when the input is visible,
    screenshot, close), and the exit of the block; a run that completes
    has made the whole sequence.  So the observable steps of a run are an
    initial segment of launch, navigation, query, optional fill,
    screenshot, shutdown, in this order.  Each call is a transition of the
    world that returns before the next is made. *)
Theorem calls_follow_the_script h :
  exists (visible : bool) (n : nat),
    w_trace (run (boot h)).2
      = CEnter :: take n (script_calls (h_cwd h) visible) ++ [CExit] /\
    match (run (boot h)).1 with
    | Ok _ => n = List.length (script_calls (h_cwd h) visible)
    | Raise _ => (n < List.length (script_calls (h_cwd h) visible))%nat
    end /\
    omap step_of (w_trace (run (boot h)).2)
      `prefix_of`
      ([Launch; Navigate; Query] ++ (if visible then [Fill] else []) ++
       [Capture; Shutdown])%list.
Proof.
  destruct (run_paths h).
  - exists false, 1%nat. cbn. repeat split; [lia|]. by eexists.
  - exists false, 5%nat. cbn. repeat split; [lia|]. by eexists.
  - exists false, 9%nat. cbn. repeat split. by exists [].
  - exists true, 10%nat. cbn. repeat split. by exists [].
  - exists true, 8%nat. cbn. repeat split; [lia|]. by eexists.
Qed.

(** ** C8: arguments and environment *)




(** ** C9: one diagnostic line, after the navigation line *)

(** C9: when the navigation succeeds, the standard output of the run is
    the [Navigating to ...] line followed by exactly one diagnostic line,
    which is [Base URL input is visible] or [Base URL input NOT visible]:
    one of the two is printed and the other is not. *)
Theorem one_diagnostic_after_navigating h doc :
  h_runtime h = true ->
  load (h_fs h) (taskpane_url (h_cwd h)) = Some doc ->
  exists diagnostic,
    w_stdout (run (boot h)).2
      = ["Navigating to " +:+ taskpane_url (h_cwd h); diagnostic] /\
    (diagnostic = "Base URL input is visible" \/
     diagnostic = "Base URL input NOT visible") /\
    ((printed "Base URL input is visible" (run (boot h)).2 /\
      ~ printed "Base URL input NOT visible" (run (boot h)).2)
     \/
     (~ printed "Base URL input is visible" (run (boot h)).2 /\
      printed "Base URL input NOT visible" (run (boot h)).2)).
Proof.
  intros Hrt Hload.
  destruct (nav_line_is_no_diagnostic (h_cwd h)) as [Hv Hn].
  destruct (run_paths h)
    as [Hno|_ Hnone|doc1 _ _ _|doc1 e1 _ _ _ _ _ doc'|doc1 e1 _ _ _ _ _];
    try congruence; unfold printed; cbn; fold (nav_line (h_cwd h)).
  - exists "Base URL input NOT visible". split; [done|]. split; [by right|].
    right. split; [not_in_list|in_list].
  - exists "Base URL input is visible". split; [done|]. split; [by left|].
    left. split; [in_list|not_in_list].
  - exists "Base URL input is visible". split; [done|]. split; [by left|].
    left. split; [in_list|not_in_list].
Qed.

Lemma one_diagnostic_after_navigating_on_host_absent :
  exists diagnostic,
    w_stdout (run (boot host_absent)).2
      = ["Navigating to " +:+ taskpane_url (h_cwd host_absent); diagnostic] /\
    (diagnostic = "Base URL input is visible" \/
     diagnostic = "Base URL input NOT visible") /\
    ((printed "Base URL input is visible" (run (boot host_absent)).2 /\
      ~ printed "Base URL input NOT visible" (run (boot host_absent)).2)
     \/
     (~ printed "Base URL input is visible" (run (boot host_absent)).2 /\
      printed "Base URL input NOT visible" (run (boot host_absent)).2)).
Proof.
  apply (one_diagnostic_after_navigating host_absent settings_only);
    reflexivity.
Defined.

(** ** C10: both paths hang off the working directory *)

(** C10 at a working directory with a [#] in its name: the task pane is
    on disk at [D/src/taskpane/taskpane.html], but the URL the script
    builds names the file [/home/dev/c] (what follows the [#] is a
    fragment), so the page is not read, the navigation raises and no
    screenshot is written under [D]. *)
Lemma sharp_directory_is_not_read :
  h_fs host_sharp !! (h_cwd host_sharp +:+ "/src/taskpane/taskpane.html")
    = Some (HtmlFile (taskpane text_input)) /\
  omap goto_url (w_trace (run (boot host_sharp)).2)
    = ["file:///home/dev/c#/addin/src/taskpane/taskpane.html"] /\
  file_url_path "file:///home/dev/c#/addin/src/taskpane/taskpane.html"
    = Some "/home/dev/c" /\
  (run (boot host_sharp)).1
    = Raise (NavigationError
               "file:///home/dev/c#/addin/src/taskpane/taskpane.html") /\
  w_fs (run (boot host_sharp)).2
    !! (h_cwd host_sharp +:+ "/verification/taskpane_screenshot.png")
    = None.
Proof. repeat split; reflexivity. Qed.

(** * Further properties of the run *)

(** X1: from a working directory D that a URL carries unchanged (an
    absolute path of ASCII letters, digits, [/], [-], [_] and [.] with no
    segment that starts with a dot), on a host with a browser runtime, the
    task pane at [D/src/taskpane/taskpane.html] and an input that is
    absent, hidden or accepts text, the script as the interpreter runs it
    completes, shows that page and writes its screenshot to
    [D/verification/taskpane_screenshot.png]. *)
Theorem plain_directory_is_the_base h doc :
  plain_path (h_cwd h) = true ->
  h_runtime h = true ->
  h_fs h !! (h_cwd h +:+ "/src/taskpane/taskpane.html")
    = Some (HtmlFile doc) ->
  (forall e, doc !! "baseUrlInput" = Some e ->
             el_visible e = true -> el_editable e = true) ->
  (Py.run (boot h)).1 = Ok tt /\
  exists shown,
    w_page (Py.run (boot h)).2 = Some shown /\
    (forall id, id ≠ "baseUrlInput" -> shown !! id = doc !! id) /\
    w_fs (Py.run (boot h)).2
      !! (h_cwd h +:+ "/verification/taskpane_screenshot.png")
      = Some (PngFile (Image false shown)).
Proof.
  intros Hplain Hrt Hfile Hfillable.
  assert (Hload : load (h_fs h) (taskpane_url (h_cwd h)) = Some doc).
  { rewrite (load_plain _ _ Hplain), Hfile. reflexivity. }
  rewrite py_run_is_run.
  2: { intros _. split; [by apply plain_path_segments|].
       by apply plain_path_can_be_printed. }
  change (h_cwd h +:+ "/verification/taskpane_screenshot.png")
    with (resolve (h_cwd h) "verification/taskpane_screenshot.png").
  destruct (doc !! "baseUrlInput") as [e|] eqn:He;
    [destruct (el_visible e) eqn:Hvis|].
  - rewrite (run_filled h doc e) by auto. cbn.
    split; [reflexivity|]. eexists. split; [reflexivity|].
    split; [|apply lookup_insert_eq].
    intros id Hid. by apply lookup_insert_ne.
  - rewrite (run_not_visible h doc) by (auto || congruence). cbn.
    split; [reflexivity|]. exists doc. split; [reflexivity|].
    split; [done|apply lookup_insert_eq].
  - rewrite (run_not_visible h doc) by (auto || congruence). cbn.
    split; [reflexivity|]. exists doc. split; [reflexivity|].
    split; [done|apply lookup_insert_eq].
Qed.

Lemma plain_directory_is_the_base_on_host_ok :
  (Py.run (boot host_ok)).1 = Ok tt /\
  exists shown,
    w_page (Py.run (boot host_ok)).2 = Some shown /\
    (forall id, id ≠ "baseUrlInput" ->
                shown !! id = taskpane text_input !! id) /\
    w_fs (Py.run (boot host_ok)).2
      !! (h_cwd host_ok +:+ "/verification/taskpane_screenshot.png")
      = Some (PngFile (Image false shown)).
Proof.
  apply (plain_directory_is_the_base host_ok (taskpane text_input)).
  - reflexivity.
  - reflexivity.
  - reflexivity.
  - intros e He _. change (Some text_input = Some e) in He.
    by injection He as <-.
Defined.

(** X2: without a browser runtime the launch raises; nothing catches the
    error, the process exits with status 1, and the run has navigated
    nowhere, printed nothing and written no file. *)
Theorem missing_runtime_is_fatal h :
  h_runtime h = false ->
  (run (boot h)).1 = Raise EnvironmentError /\
  (main h).1 = 1 /\
  omap goto_url (w_trace (main h).2) = [] /\
  w_stdout (main h).2 = [] /\
  w_fs (main h).2 = h_fs h.
Proof.
  intros Hrt. unfold main. rewrite (run_no_runtime h Hrt). by cbn.
Qed.

Lemma missing_runtime_is_fatal_on_host_bare :
  (run (boot host_bare)).1 = Raise EnvironmentError /\
  (main host_bare).1 = 1 /\
  omap goto_url (w_trace (main host_bare).2) = [] /\
  w_stdout (main host_bare).2 = [] /\
  w_fs (main host_bare).2 = h_fs host_bare.
Proof. apply (missing_runtime_is_fatal host_bare). reflexivity. Defined.

(** X3: a run that completed can be repeated on the files it left: the
    second run completes too, prints the same lines and leaves the same
    files, the screenshot of the first run replaced by an equal one. *)
Theorem second_run_overwrites h :
  (run (boot h)).1 = Ok tt ->
  (run (boot (rerun h))).1 = Ok tt /\
  w_fs (run (boot (rerun h))).2 = w_fs (run (boot h)).2 /\
  w_stdout (run (boot (rerun h))).2 = w_stdout (run (boot h)).2.
Proof.
  intros Hok. unfold rerun, main.
  destruct (run_paths h) as [H1|H1 H2|doc H1 H2 H3|doc e H1 H2 H3 H4 H5 doc'|doc e H1 H2 H3 H4 H5];
    try discriminate Hok; cbn [snd fst w_fs left set_stderr].
  - rewrite (run_not_visible _ doc); cbn; try assumption.
    + repeat split. unfold saved. apply insert_insert_eq.
    + by rewrite load_saved.
  - rewrite (run_filled _ doc e); cbn; try assumption.
    + repeat split. unfold saved. apply insert_insert_eq.
    + by rewrite load_saved.
Qed.

Lemma second_run_overwrites_on_host_ok :
  (run (boot (rerun host_ok))).1 = Ok tt /\
  w_fs (run (boot (rerun host_ok))).2 = w_fs (run (boot host_ok)).2 /\
  w_stdout (run (boot (rerun host_ok))).2 = w_stdout (run (boot host_ok)).2.
Proof. apply (second_run_overwrites host_ok). reflexivity. Defined.



(** X6: whatever the host, a run changes no file but the screenshot: with
    the screenshot path taken out, the files after the run are the files
    before it; and the page file it navigates to is never written. *)
Theorem only_the_screenshot_is_written h :
  delete (resolve (h_cwd h) "verification/taskpane_screenshot.png")
    (w_fs (main h).2)
  = delete (resolve (h_cwd h) "verification/taskpane_screenshot.png")
      (h_fs h) /\
  w_fs (main h).2 !! url_path (h_cwd h +:+ "/src/taskpane/taskpane.html")
  = h_fs h !! url_path (h_cwd h +:+ "/src/taskpane/taskpane.html").
Proof.
  unfold main.
  destruct (run_paths h); cbn; unfold saved;
    rewrite ?delete_insert_eq,
      ?(lookup_insert_ne _ _ _ _ (screenshot_is_not_the_page (h_cwd h)));
    by split.
Qed.

(** X7: when the input is visible but does not take text, the run prints
    that it is visible, [fill] raises and nothing catches it: the process
    exits with status 1, the DOM is as it was loaded, no screenshot is
    asked for, [browser.close()] is not reached, the files are unchanged,
    and the browser is released all the same by the exit of the [with]
    block. *)
Theorem refused_fill_is_fatal h doc e :
  h_runtime h = true ->
  load (h_fs h) (taskpane_url (h_cwd h)) = Some doc ->
  doc !! "baseUrlInput" = Some e ->
  el_visible e = true ->
  el_editable e = false ->
  (run (boot h)).1 = Raise (ActionError "#baseUrlInput") /\
  (main h).1 = 1 /\
  w_stdout (main h).2
    = ["Navigating to " +:+ taskpane_url (h_cwd h);
       "Base URL input is visible"] /\
  w_page (main h).2 = Some doc /\
  omap shot_call (w_trace (main h).2) = [] /\
  ~ called CClose (main h).2 /\
  w_fs (main h).2 = h_fs h /\
  w_browser (main h).2 = false.
Proof.
  intros Hrt Hload He Hvis Hedit. unfold main.
  rewrite (run_fill_refused h doc e) by assumption. cbn.
  repeat (split; [reflexivity|]). split; [|by split].
  unfold called. cbn. not_in_list.
Qed.

Lemma refused_fill_is_fatal_on_host_disabled :
  (run (boot host_disabled)).1 = Raise (ActionError "#baseUrlInput") /\
  (main host_disabled).1 = 1 /\
  w_stdout (main host_disabled).2
    = ["Navigating to " +:+ taskpane_url (h_cwd host_disabled);
       "Base URL input is visible"] /\
  w_page (main host_disabled).2 = Some (taskpane disabled_input) /\
  omap shot_call (w_trace (main host_disabled).2) = [] /\
  ~ called CClose (main host_disabled).2 /\
  w_fs (main host_disabled).2 = h_fs host_disabled /\
  w_browser (main host_disabled).2 = false.
Proof.
  apply (refused_fill_is_fatal host_disabled (taskpane disabled_input)
           disabled_input); reflexivity.
Defined.

(** X8: the screenshot is taken after the fill: when the input is visible
    and takes text, the image saved under the working directory is of the
    viewport and shows the input holding [https://api.gptbots.ai/v1], with
    every other element as it was loaded. *)
Theorem screenshot_shows_the_filled_input h doc e :
  h_runtime h = true ->
  load (h_fs h) (taskpane_url (h_cwd h)) = Some doc ->
  doc !! "baseUrlInput" = Some e ->
  el_visible e = true ->
  el_editable e = true ->
  exists img e',
    w_fs (main h).2
      !! resolve (h_cwd h) "verification/taskpane_screenshot.png"
      = Some (PngFile img) /\
    img_full_page img = false /\
    img_dom img !! "baseUrlInput" = Some e' /\
    el_value e' = "https://api.gptbots.ai/v1" /\
    el_visible e' = true /\
    forall id, id ≠ "baseUrlInput" -> img_dom img !! id = doc !! id.
Proof.
  intros Hrt Hload He Hvis Hedit. unfold main.
  rewrite (run_filled h doc e) by assumption. cbn. unfold saved.
  eexists _, _. split; [apply lookup_insert_eq|]. cbn.
  split; [reflexivity|]. split; [apply lookup_insert_eq|].
  split; [reflexivity|]. split; [assumption|].
  intros id Hid. by apply lookup_insert_ne.
Qed.

Lemma screenshot_shows_the_filled_input_on_host_ok :
  exists img e',
    w_fs (main host_ok).2
      !! resolve (h_cwd host_ok) "verification/taskpane_screenshot.png"
      = Some (PngFile img) /\
    img_full_page img = false /\
    img_dom img !! "baseUrlInput" = Some e' /\
    el_value e' = "https://api.gptbots.ai/v1" /\
    el_visible e' = true /\
    forall id, id ≠ "baseUrlInput" ->
               img_dom img !! id = taskpane text_input !! id.
Proof.
  apply (screenshot_shows_the_filled_input host_ok (taskpane text_input)
           text_input); reflexivity.
Defined.



